(** * Experiment configuration module ([config.py]) of DCASE2021

    [config.py] is a straight-line Python module: a docstring, four imports, four path
    strings, the start of a MATLAB engine session, one path computation,
    one [addpath] call on the session, five signal constants, the label
    count with its derived sentinel, and one call to the collaborator
    [utils.get_class_name_dict].

    The module is embedded as a computation in a state-and-exception monad.
    The state is the module namespace (a finite map from global names to
    Python values) together with the log of what the module has done so
    far; the outside world (the import system, [matlab.engine], [os.path],
    [utils]) is an oracle that answers each external interaction either
    with a value or with an exception. *)

From Stdlib Require Import ZArith Ascii String List Lia PrimFloat.
From stdpp Require Import base gmap strings list fin_maps.
Import ListNotations.

Local Open Scope Z_scope.
Local Open Scope string_scope.

(* [frame_length = 0.1]: the literal denotes the nearest binary64 value,
   in Python as here. *)
Set Warnings "-inexact-float".

(** ** Python values *)

(** The values the module handles: [None], [str], [int] (unbounded, hence [Z]),
    [float] (binary64), the class-name mapping, opaque objects handed out
    by external libraries (the engine session), imported modules, and
    attributes of those ([engine.start_matlab], [os.path.abspath],
    [eng.addpath]).  [utils.get_class_name_dict] is not part of the
    sources; by the spec its result maps class indices to class names,
    hence [VDict]. *)
Inductive value : Type :=
| VNone
| VStr (s : string)
| VInt (z : Z)
| VFloat (f : float)
| VDict (d : gmap Z string)
| VObj (id : nat)
| VExt (module : string)
| VAttr (obj : value) (name : string).

(** Exceptions: the two the interpreter itself can raise while running the
    module body, and whatever an external interaction raises. *)
Inductive exn : Type :=
| NameError (name : string)
| TypeError
| Raised (what : string).

(** One entry of the execution log. *)
Inductive event : Type :=
| EImport (module : string) (r : option exn)
| EAssign (name : string) (v : value)
| ECall (f : value) (args : list value) (r : exn + value).

(** The outside world.  Each answer may depend on everything that happened
    before, so a world can answer the same call differently each time.
    [module_attr] is what the import system stores under the names it sets
    on a new module before running its body ([__doc__], [__package__],
    [__loader__], [__spec__], [__cached__], [__builtins__]). *)
Record World : Type := {
  import_module : list event -> string -> option exn;
  call_external : list event -> value -> list value -> exn + value;
  module_attr : string -> value
}.

(** ** The execution monad *)

Record State : Type := {
  globals : gmap string value;
  log : list event
}.

Definition M (A : Type) : Type := State -> State * (exn + A).

Definition ret {A} (a : A) : M A := fun s => (s, inr a).

Definition raise {A} (e : exn) : M A := fun s => (s, inl e).

Definition bind {A B} (m : M A) (k : A -> M B) : M B :=
  fun s =>
    match m s with
    | (s', inl e) => (s', inl e)
    | (s', inr a) => k a s'
    end.

Declare Scope py_scope.
Delimit Scope py_scope with py.
Notation "x <- m ;; k" := (bind m (fun x => k))
  (at level 100, m at next level, right associativity) : py_scope.
Notation "m ;; k" := (bind m (fun _ => k))
  (at level 100, right associativity) : py_scope.
Local Open Scope py_scope.

Definition record (e : event) : M unit :=
  fun s => ({| globals := globals s; log := log s ++ [e] |}, inr tt).

Definition bind_name (name : string) (v : value) : M unit :=
  fun s => ({| globals := <[name := v]> (globals s); log := log s |}, inr tt).

Section Module.

Variable w : World.

(** *** Expressions *)

Definition int_ (z : Z) : M value := ret (VInt z).
Definition str_ (s : string) : M value := ret (VStr s).
Definition float_ (f : float) : M value := ret (VFloat f).

(** A global name: [NameError] when it is not bound. *)
Definition name_ (x : string) : M value :=
  fun s =>
    match globals s !! x with
    | Some v => (s, inr v)
    | None => (s, inl (NameError x))
    end.

(** Attribute access [e.a] on an external object.  Whether the attribute
    exists is the external library's business: a missing one shows when
    the world answers the call. *)
Definition attr (e : M value) (a : string) : M value :=
  v <- e ;; ret (VAttr v a).

(** Arguments are evaluated left to right. *)
Fixpoint eval_args (args : list (M value)) : M (list value) :=
  match args with
  | [] => ret []
  | a :: rest => v <- a ;; vs <- eval_args rest ;; ret (v :: vs)
  end.

(** A call [f(args)]: the callee, then the arguments, then the world is
    asked; the call and its answer are logged, and an exception answer
    is raised. *)
Definition call (f : M value) (args : list (M value)) : M value :=
  fv <- f ;;
  vs <- eval_args args ;;
  fun s =>
    let r := call_external w (log s) fv vs in
    let s' := {| globals := globals s; log := log s ++ [ECall fv vs r] |} in
    match r with
    | inl e => (s', inl e)
    | inr v => (s', inr v)
    end.

(** Binary [-]; the module only subtracts [int]s. *)
Definition sub (a b : M value) : M value :=
  x <- a ;;
  y <- b ;;
  match x, y with
  | VInt m, VInt n => ret (VInt (m - n))
  | _, _ => raise TypeError
  end.

(** *** Statements *)

Definition do_import (module : string) : M unit :=
  fun s =>
    let r := import_module w (log s) module in
    let s' := {| globals := globals s; log := log s ++ [EImport module r] |} in
    match r with
    | Some e => (s', inl e)
    | None => (s', inr tt)
    end.

(** [import module as name] *)
Definition import_as (module name : string) : M unit :=
  do_import module ;; bind_name name (VExt module).

(** [from module import a] *)
Definition from_import (module a : string) : M unit :=
  do_import module ;; bind_name a (VAttr (VExt module) a).

(** [name = e] *)
Definition assign (name : string) (e : M value) : M unit :=
  v <- e ;; record (EAssign name v) ;; bind_name name v.

(** An expression statement: the value is dropped. *)
Definition expr_stmt (e : M value) : M unit :=
  _ <- e ;; ret tt.

(** The docstring that opens a module: it is stored in [__doc__].  It is
    neither an import, nor an assignment statement, nor a call, so the
    log does not show it. *)
Definition docstring (text : string) : M unit :=
  bind_name "__doc__" (VStr text).

(** Lines 1-3: a newline, the sentence, a newline. *)
Definition docstring_lit : string :=
  String "010"%char
    ("Experiment configuration file" ++ String "010"%char "").

(** *** The module body, with the [num_classes] literal as a parameter *)

Definition config_with (num_classes : Z) : M unit :=
  docstring docstring_lit ;;
  import_as "os" "os" ;;
  from_import "matlab" "engine" ;;
  import_as "numpy" "np" ;;
  from_import "utils" "get_class_name_dict" ;;
  assign "data_folder_path"
         (str_ "/home/pans/datasets/DCASE2021/foa_dev/dev-train") ;;
  assign "stft_folder_path"
         (str_ "/home/pans/datasets/DCASE2021/stft_foa_dev/dev-train") ;;
  assign "csv_file_path"
         (str_ "/home/pans/datasets/DCASE2021/metadata_dev/dev-train") ;;
  assign "matlab_path"
         (str_ "/home/pans/source/DCASE2021/multiple-target-tracking-master") ;;
  assign "eng" (call (attr (name_ "engine") "start_matlab") []) ;;
  assign "this_file_path"
         (call (attr (attr (name_ "os") "path") "dirname")
               [call (attr (attr (name_ "os") "path") "abspath")
                     [name_ "__file__"]]) ;;
  expr_stmt (call (attr (name_ "eng") "addpath") [name_ "matlab_path"]) ;;
  assign "fs" (int_ 24000) ;;
  assign "window_size" (int_ 2400) ;;
  assign "window_overlap" (int_ 1200) ;;
  assign "nfft" (int_ 2400) ;;
  assign "frame_length" (float_ 0.1) ;;
  assign "num_classes" (int_ num_classes) ;;
  assign "undefined_classID" (sub (name_ "num_classes") (int_ 1)) ;;
  assign "class_name_dict" (call (name_ "get_class_name_dict") []).

(** The module as written: [num_classes = 13]. *)
Definition config : M unit := config_with 13.

(** The namespace the import system hands to the module body: the eight
    names every module loaded from a file starts with. *)
Definition fresh_module (file : string) : State :=
  {| globals :=
       <["__file__" := VStr file]>
         (<["__name__" := VStr "config"]>
            (<["__builtins__" := module_attr w "__builtins__"]>
               (<["__cached__" := module_attr w "__cached__"]>
                  (<["__spec__" := module_attr w "__spec__"]>
                     (<["__loader__" := module_attr w "__loader__"]>
                        (<["__package__" := module_attr w "__package__"]>
                           {["__doc__" := module_attr w "__doc__"]}))))));
     log := [] |}.

Definition load_with (num_classes : Z) (file : string) : State * (exn + unit) :=
  config_with num_classes (fresh_module file).

Definition load (file : string) : State * (exn + unit) :=
  config (fresh_module file).

End Module.


(** ** What a load can do

    The names below spell out the values and log segments the module body
    produces; [outcome] lists the ten ways a load can end. *)

Definition data_folder_path_lit : string :=
  "/home/pans/datasets/DCASE2021/foa_dev/dev-train".
Definition stft_folder_path_lit : string :=
  "/home/pans/datasets/DCASE2021/stft_foa_dev/dev-train".
Definition csv_file_path_lit : string :=
  "/home/pans/datasets/DCASE2021/metadata_dev/dev-train".
Definition matlab_path_lit : string :=
  "/home/pans/source/DCASE2021/multiple-target-tracking-master".

Definition start_matlab_fn : value :=
  VAttr (VAttr (VExt "matlab") "engine") "start_matlab".
Definition abspath_fn : value := VAttr (VAttr (VExt "os") "path") "abspath".
Definition dirname_fn : value := VAttr (VAttr (VExt "os") "path") "dirname".
Definition addpath_fn (eng : value) : value := VAttr eng "addpath".
Definition get_class_name_dict_fn : value :=
  VAttr (VExt "utils") "get_class_name_dict".

Section Stages.

Variables (w : World) (file : string) (n : Z).

Definition ns_fresh : gmap string value := globals (fresh_module w file).
Definition ns_doc : gmap string value :=
  <["__doc__" := VStr docstring_lit]> ns_fresh.
Definition ns_os : gmap string value := <["os" := VExt "os"]> ns_doc.
Definition ns_engine : gmap string value :=
  <["engine" := VAttr (VExt "matlab") "engine"]> ns_os.
Definition ns_np : gmap string value := <["np" := VExt "numpy"]> ns_engine.
Definition ns_imports : gmap string value :=
  <["get_class_name_dict" := get_class_name_dict_fn]> ns_np.
Definition ns_paths : gmap string value :=
  <["matlab_path" := VStr matlab_path_lit]>
    (<["csv_file_path" := VStr csv_file_path_lit]>
       (<["stft_folder_path" := VStr stft_folder_path_lit]>
          (<["data_folder_path" := VStr data_folder_path_lit]> ns_imports))).
Definition ns_session (h : value) : gmap string value :=
  <["eng" := h]> ns_paths.
Definition ns_here (h d : value) : gmap string value :=
  <["this_file_path" := d]> (ns_session h).
Definition ns_labels (h d : value) : gmap string value :=
  <["undefined_classID" := VInt (n - 1)]>
    (<["num_classes" := VInt n]>
       (<["frame_length" := VFloat 0.1]>
          (<["nfft" := VInt 2400]>
             (<["window_overlap" := VInt 1200]>
                (<["window_size" := VInt 2400]>
                   (<["fs" := VInt 24000]> (ns_here h d))))))).
Definition ns_loaded (h d m : value) : gmap string value :=
  <["class_name_dict" := m]> (ns_labels h d).

Definition log_imports : list event :=
  [EImport "os" None; EImport "matlab" None;
   EImport "numpy" None; EImport "utils" None].
Definition log_paths : list event :=
  log_imports ++
  [EAssign "data_folder_path" (VStr data_folder_path_lit);
   EAssign "stft_folder_path" (VStr stft_folder_path_lit);
   EAssign "csv_file_path" (VStr csv_file_path_lit);
   EAssign "matlab_path" (VStr matlab_path_lit)].
Definition log_session (h : value) : list event :=
  log_paths ++ [ECall start_matlab_fn [] (inr h); EAssign "eng" h].
Definition log_abspath (h p : value) : list event :=
  log_session h ++ [ECall abspath_fn [VStr file] (inr p)].
Definition log_here (h p d : value) : list event :=
  log_abspath h p ++
  [ECall dirname_fn [p] (inr d); EAssign "this_file_path" d].
Definition log_labels (h p d x : value) : list event :=
  log_here h p d ++
  [ECall (addpath_fn h) [VStr matlab_path_lit] (inr x);
   EAssign "fs" (VInt 24000);
   EAssign "window_size" (VInt 2400);
   EAssign "window_overlap" (VInt 1200);
   EAssign "nfft" (VInt 2400);
   EAssign "frame_length" (VFloat 0.1);
   EAssign "num_classes" (VInt n);
   EAssign "undefined_classID" (VInt (n - 1))].
Definition log_loaded (h p d x m : value) : list event :=
  log_labels h p d x ++
  [ECall get_class_name_dict_fn [] (inr m); EAssign "class_name_dict" m].

End Stages.

(** The ten outcomes of a load in world [w]: a failure at one of the nine
    external interactions, or a complete load.  Every premise is an answer
    of the world at the log reached so far. *)
Inductive outcome (w : World) (file : string) (n : Z) :
  State * (exn + unit) -> Prop :=
| O_import_os e :
    import_module w [] "os" = Some e ->
    outcome w file n
      ({| globals := ns_doc w file; log := [EImport "os" (Some e)] |}, inl e)
| O_import_matlab e :
    import_module w [] "os" = None ->
    import_module w [EImport "os" None] "matlab" = Some e ->
    outcome w file n
      ({| globals := ns_os w file;
          log := [EImport "os" None; EImport "matlab" (Some e)] |}, inl e)
| O_import_numpy e :
    import_module w [] "os" = None ->
    import_module w [EImport "os" None] "matlab" = None ->
    import_module w [EImport "os" None; EImport "matlab" None] "numpy"
      = Some e ->
    outcome w file n
      ({| globals := ns_engine w file;
          log := [EImport "os" None; EImport "matlab" None;
                  EImport "numpy" (Some e)] |}, inl e)
| O_import_utils e :
    import_module w [] "os" = None ->
    import_module w [EImport "os" None] "matlab" = None ->
    import_module w [EImport "os" None; EImport "matlab" None] "numpy"
      = None ->
    import_module w [EImport "os" None; EImport "matlab" None;
                     EImport "numpy" None] "utils" = Some e ->
    outcome w file n
      ({| globals := ns_np w file;
          log := [EImport "os" None; EImport "matlab" None;
                  EImport "numpy" None; EImport "utils" (Some e)] |}, inl e)
| O_start_matlab e :
    call_external w log_paths start_matlab_fn [] = inl e ->
    outcome w file n
      ({| globals := ns_paths w file;
          log := log_paths ++ [ECall start_matlab_fn [] (inl e)] |}, inl e)
| O_abspath h e :
    call_external w log_paths start_matlab_fn [] = inr h ->
    call_external w (log_session h) abspath_fn [VStr file] = inl e ->
    outcome w file n
      ({| globals := ns_session w file h;
          log := log_session h ++ [ECall abspath_fn [VStr file] (inl e)] |},
       inl e)
| O_dirname h p e :
    call_external w log_paths start_matlab_fn [] = inr h ->
    call_external w (log_session h) abspath_fn [VStr file] = inr p ->
    call_external w (log_abspath file h p) dirname_fn [p] = inl e ->
    outcome w file n
      ({| globals := ns_session w file h;
          log := log_abspath file h p ++ [ECall dirname_fn [p] (inl e)] |},
       inl e)
| O_addpath h p d e :
    call_external w log_paths start_matlab_fn [] = inr h ->
    call_external w (log_session h) abspath_fn [VStr file] = inr p ->
    call_external w (log_abspath file h p) dirname_fn [p] = inr d ->
    call_external w (log_here file h p d) (addpath_fn h) [VStr matlab_path_lit]
      = inl e ->
    outcome w file n
      ({| globals := ns_here w file h d;
          log := log_here file h p d ++
                 [ECall (addpath_fn h) [VStr matlab_path_lit] (inl e)] |},
       inl e)
| O_get_class_name_dict h p d x e :
    call_external w log_paths start_matlab_fn [] = inr h ->
    call_external w (log_session h) abspath_fn [VStr file] = inr p ->
    call_external w (log_abspath file h p) dirname_fn [p] = inr d ->
    call_external w (log_here file h p d) (addpath_fn h) [VStr matlab_path_lit]
      = inr x ->
    call_external w (log_labels file n h p d x) get_class_name_dict_fn []
      = inl e ->
    outcome w file n
      ({| globals := ns_labels w file n h d;
          log := log_labels file n h p d x ++
                 [ECall get_class_name_dict_fn [] (inl e)] |},
       inl e)
| O_loaded h p d x m :
    call_external w log_paths start_matlab_fn [] = inr h ->
    call_external w (log_session h) abspath_fn [VStr file] = inr p ->
    call_external w (log_abspath file h p) dirname_fn [p] = inr d ->
    call_external w (log_here file h p d) (addpath_fn h) [VStr matlab_path_lit]
      = inr x ->
    call_external w (log_labels file n h p d x) get_class_name_dict_fn []
      = inr m ->
    outcome w file n
      ({| globals := ns_loaded w file n h d m;
          log := log_loaded file n h p d x m |},
       inr tt).


(** ** Reading the log *)

(** The exception an entry of the log carries, if any. *)
Definition raised (ev : event) : option exn :=
  match ev with
  | EImport _ (Some e) => Some e
  | ECall _ _ (inl e) => Some e
  | _ => None
  end.

(** Calls of the attribute [a] of some object ([x.a(...)]). *)
Definition is_call_of (a : string) (ev : event) : bool :=
  match ev with
  | ECall (VAttr _ b) _ _ => String.eqb a b
  | _ => false
  end.

Definition calls_of (a : string) (l : list event) : list event :=
  List.filter (is_call_of a) l.

(** The exceptions raised by calls of the attribute [a]. *)
Definition raised_by (a : string) (l : list event) : list exn :=
  omap raised (calls_of a l).

(** Python's [==], on the values the module's constants take. *)
Definition py_eq (a b : value) : bool :=
  match a, b with
  | VInt x, VInt y => Z.eqb x y
  | VFloat x, VFloat y => PrimFloat.eqb x y
  | VStr x, VStr y => String.eqb x y
  | _, _ => false
  end.

Definition path_names : list string :=
  ["data_folder_path"; "stft_folder_path"; "csv_file_path"; "matlab_path"].

Definition signal_names : list string :=
  ["fs"; "window_size"; "window_overlap"; "nfft"; "frame_length"].

Definition label_names : list string :=
  ["num_classes"; "undefined_classID"; "class_name_dict"].

(** What a client reads from the configuration; [eng] and
    [this_file_path] are handles and reference values, not settings. *)
Definition observable_names : list string :=
  (path_names ++ signal_names ++ label_names)%list.

Definition default_signal_constants : list (string * value) :=
  [("fs", VInt 24000); ("window_size", VInt 2400);
   ("window_overlap", VInt 1200); ("nfft", VInt 2400);
   ("frame_length", VFloat 0.1)].

(** The six steps of the construction contract. *)
Inductive phase : Type :=
| Paths
| StartSession
| ModuleDir
| AddPath
| Constants
| ClassNames.

#[global] Instance phase_eq_dec : EqDecision phase.
Proof. solve_decision. Defined.

(** The step a log entry belongs to.  Imports and the two label-count
    assignments belong to none of the six. *)
Definition phase_of (ev : event) : option phase :=
  match ev with
  | EImport _ _ => None
  | EAssign x _ =>
      if bool_decide (x ∈ path_names) then Some Paths
      else if bool_decide (x = "eng") then Some StartSession
      else if bool_decide (x = "this_file_path") then Some ModuleDir
      else if bool_decide (x ∈ signal_names) then Some Constants
      else if bool_decide (x = "class_name_dict") then Some ClassNames
      else None
  | ECall (VAttr _ a) _ _ =>
      if bool_decide (a = "start_matlab") then Some StartSession
      else if bool_decide (a ∈ ["abspath"; "dirname"]) then Some ModuleDir
      else if bool_decide (a = "addpath") then Some AddPath
      else if bool_decide (a = "get_class_name_dict") then Some ClassNames
      else None
  | ECall _ _ _ => None
  end.

(** Runs of equal neighbours collapsed to one. *)
Fixpoint compress (l : list phase) : list phase :=
  match l with
  | [] => []
  | a :: rest =>
      match rest with
      | b :: _ => if bool_decide (a = b) then compress rest else a :: compress rest
      | [] => [a]
      end
  end.

Definition phases (l : list event) : list phase :=
  compress (omap phase_of l).

Definition six_steps : list phase :=
  [Paths; StartSession; ModuleDir; AddPath; Constants; ClassNames].

(** ** The label scheme the spec asks for *)

(** A mapping with exactly [n] entries, one for each index below [n]. *)
Definition complete_label_map (n : Z) (m : gmap Z string) : Prop :=
  size m = Z.to_nat n /\ forall i, 0 <= i < n -> is_Some (m !! i).

(** The collaborator answers every call the same way, in both worlds. *)
Definition same_class_names (w1 w2 : World) : Prop :=
  forall l1 l2,
    call_external w1 l1 get_class_name_dict_fn []
    = call_external w2 l2 get_class_name_dict_fn [].

(** The spec's reading of the label scheme: a load that succeeds has
    stored a complete mapping. *)
Definition load_checks_class_names (w : World) (file : string) : Prop :=
  forall s,
    load w file = (s, inr tt) ->
    exists m,
      globals s !! "class_name_dict" = Some (VDict m)
      /\ complete_label_map 13 m.

(** The spec's reading of failure: a load raises exactly when the session
    start or the collaborator does. *)
Definition raises_iff_start_or_collaborator (w : World) (file : string)
  : Prop :=
  (exists e, (load w file).2 = inl e) <->
  (raised_by "start_matlab" (log (load w file).1) <> []
   \/ raised_by "get_class_name_dict" (log (load w file).1) <> []).


(** ** Some worlds *)

Definition config_file : string := "/home/pans/source/DCASE2021/config.py".

Definition thirteen_names : gmap Z string :=
  list_to_map
    [(0, "alarm"); (1, "crying baby"); (2, "crash"); (3, "barking dog");
     (4, "female scream"); (5, "female speech"); (6, "footsteps");
     (7, "knocking on door"); (8, "male scream"); (9, "male speech");
     (10, "ringing phone"); (11, "piano"); (12, "undefined")].

Definition ten_names : gmap Z string :=
  list_to_map
    [(0, "alarm"); (1, "crying baby"); (2, "crash"); (3, "barking dog");
     (4, "female scream"); (5, "female speech"); (6, "footsteps");
     (7, "knocking on door"); (8, "male scream"); (9, "male speech")].

(** What the import system sets on the module, for these worlds. *)
Definition import_system_attr (a : string) : value :=
  if String.eqb a "__doc__" then VNone
  else if String.eqb a "__package__" then VStr ""
  else if String.eqb a "__cached__"
       then VStr "/home/pans/source/DCASE2021/__pycache__/config.cpython-38.pyc"
  else if String.eqb a "__builtins__" then VExt "builtins"
  else if String.eqb a "__loader__" then VObj 100
  else VObj 101.

(** A world where every import works, [os.path] computes the module
    directory, and the three remaining calls answer as given. *)
Definition world_of (start addpath names : exn + value) : World :=
  {| module_attr := import_system_attr;
     import_module := fun _ _ => None;
     call_external := fun _ f _ =>
       match f with
       | VAttr _ a =>
           if String.eqb a "start_matlab" then start
           else if String.eqb a "abspath" then inr (VStr config_file)
           else if String.eqb a "dirname"
                then inr (VStr "/home/pans/source/DCASE2021")
           else if String.eqb a "addpath" then addpath
           else if String.eqb a "get_class_name_dict" then names
           else inl (Raised "AttributeError")
       | _ => inl (Raised "TypeError: not callable")
       end |}.

Definition old_matlab_path : value := VStr "/usr/local/MATLAB/toolbox".

Definition w_ok : World :=
  world_of (inr (VObj 0)) (inr old_matlab_path) (inr (VDict thirteen_names)).

(** The same, in another engine session. *)
Definition w_again : World :=
  world_of (inr (VObj 1)) (inr old_matlab_path) (inr (VDict thirteen_names)).

Definition w_ten_names : World :=
  world_of (inr (VObj 0)) (inr old_matlab_path) (inr (VDict ten_names)).

Definition w_no_engine : World :=
  world_of (inl (Raised "EngineError")) (inr old_matlab_path)
           (inr (VDict thirteen_names)).

Definition w_addpath_fails : World :=
  world_of (inr (VObj 0)) (inl (Raised "MatlabExecutionError"))
           (inr (VDict thirteen_names)).

(** A world without numpy installed. *)
Definition w_no_numpy : World :=
  {| module_attr := import_system_attr;
     import_module := fun _ m =>
       if String.eqb m "numpy" then Some (Raised "ModuleNotFoundError")
       else None;
     call_external := call_external w_ok |}.

(** A world where the collaborator raises. *)
Definition w_no_names : World :=
  world_of (inr (VObj 0)) (inr old_matlab_path) (inl (Raised "KeyError")).

(** The states these worlds leave behind. *)
Definition loaded_ok : State := (load w_ok config_file).1.
Definition loaded_again : State := (load w_again config_file).1.
Definition loaded_ten_names : State := (load w_ten_names config_file).1.
Definition stopped_no_engine : State := (load w_no_engine config_file).1.
Definition stopped_at_addpath : State := (load w_addpath_fails config_file).1.

Definition stopped_no_numpy : State := (load w_no_numpy config_file).1.
Definition stopped_no_names : State := (load w_no_names config_file).1.
Definition loaded_zero_classes : State := (load_with w_ok 0 config_file).1.

(** ** More ways to read a load *)

Definition is_import (ev : event) : bool :=
  match ev with
  | EImport _ _ => true
  | _ => false
  end.

(** The attribute called by a log entry ([a] for [x.a(...)]). *)
Definition call_name (ev : event) : option string :=
  match ev with
  | ECall (VAttr _ a) _ _ => Some a
  | _ => None
  end.

(** The external calls of the module body, in program order. *)
Definition external_calls : list string :=
  ["start_matlab"; "abspath"; "dirname"; "addpath"; "get_class_name_dict"].

(** The eight names a module holds before its body runs. *)
Definition initial_names : list string :=
  ["__name__"; "__doc__"; "__package__"; "__loader__"; "__spec__";
   "__file__"; "__cached__"; "__builtins__"].

(** The names the four imports bind. *)
Definition imported_names : list string :=
  ["os"; "engine"; "np"; "get_class_name_dict"].

(** Every name of a loaded module: the initial ones, the imported ones
    and the ones the assignments bind. *)
Definition module_names : gset string :=
  list_to_set
    (initial_names ++ imported_names ++ ["eng"; "this_file_path"]
     ++ observable_names)%list.

(** The names bound when the session start is reached. *)
Definition names_before_session : gset string :=
  list_to_set (initial_names ++ imported_names ++ path_names)%list.

(** The names bound from line 23 on. *)
Definition late_names : list string :=
  (signal_names ++ label_names)%list.

(** * Properties *)

(** ** Running the module body symbolically *)

Ltac norm :=
  cbv beta iota zeta delta
    [bind ret raise record bind_name int_ str_ float_ name_ attr eval_args
     call sub do_import import_as from_import assign expr_stmt docstring
     globals log];
  cbn [app].

(* A lookup of a literal name in a namespace built from literal names. *)
Ltac resolve_lookup :=
  match goal with
  | |- context [ @lookup string value (gmap string value) _ ?k ?m ] =>
      let r := eval vm_compute in (m !! k) in
      replace (m !! k) with r by (vm_compute; reflexivity)
  end.

(* The next question to the world: both answers are considered. *)
Ltac ask_world :=
  match goal with
  | |- context [ import_module ?w ?l ?m ] =>
      destruct (import_module w l m) eqn:?
  | |- context [ call_external ?w ?l ?f ?a ] =>
      destruct (call_external w l f a) eqn:?
  end.

Ltac step := norm; first [ resolve_lookup | ask_world ].

Ltac ends_as c := norm; apply c; assumption.

(** Every load ends in one of the ten outcomes. *)
Lemma load_with_outcome (w : World) (file : string) (n : Z) :
  outcome w file n (load_with w n file).
Proof.
  unfold load_with, config_with, fresh_module.
  step; [ ends_as O_import_os | ].
  step; [ ends_as O_import_matlab | ].
  step; [ ends_as O_import_numpy | ].
  step; [ ends_as O_import_utils | ].
  step. step; [ ends_as O_start_matlab | ].
  do 3 step. step; [ ends_as O_abspath | ].
  step; [ ends_as O_dirname | ].
  do 2 step. step; [ ends_as O_addpath | ].
  do 2 step. step; [ ends_as O_get_class_name_dict | ].
  ends_as O_loaded.
Qed.

Lemma load_outcome (w : World) (file : string) :
  outcome w file 13 (load w file).
Proof. apply load_with_outcome. Qed.

(** A complete load: the final state, and what the world answered. *)
Lemma load_with_complete (w : World) (file : string) (n : Z) (s : State) :
  load_with w n file = (s, inr tt) ->
  exists h p d x m,
    s = {| globals := ns_loaded w file n h d m;
           log := log_loaded file n h p d x m |}
    /\ call_external w (log_labels file n h p d x) get_class_name_dict_fn []
       = inr m.
Proof.
  intros H. pose proof (load_with_outcome w file n) as O.
  rewrite H in O. inversion O; subst.
  exists h, p, d, x, m. split; [reflexivity | assumption].
Qed.

(** The same for the module as written. *)
Lemma load_complete (w : World) (file : string) (s : State) :
  load w file = (s, inr tt) ->
  exists h p d x m,
    s = {| globals := ns_loaded w file 13 h d m;
           log := log_loaded file 13 h p d x m |}
    /\ call_external w (log_labels file 13 h p d x) get_class_name_dict_fn []
       = inr m.
Proof. exact (load_with_complete w file 13 s). Qed.

(* Case analysis on how the load [H : load w file = (s, r)] ended. *)
Ltac outcomes H :=
  match type of H with
  | load ?w ?file = _ =>
      let O := fresh "O" in
      pose proof (load_outcome w file) as O;
      rewrite H in O; inversion O; subst; clear O
  end.

(* Goals about literal names in a staged namespace or log. *)
Ltac computed := vm_compute; reflexivity.

(** ** The label scheme *)

(** C1: for every positive [num_classes] literal, a completed load binds
    [undefined_classID] to [num_classes - 1]; the module as written
    ([num_classes = 13]) binds it to 12. *)
Theorem C1_undefined_classID (w : World) (file : string) (n : Z) (s : State) :
  0 < n ->
  load_with w n file = (s, inr tt) ->
  globals s !! "num_classes" = Some (VInt n)
  /\ globals s !! "undefined_classID" = Some (VInt (n - 1))
  /\ (forall s13, load w file = (s13, inr tt) ->
      globals s13 !! "undefined_classID" = Some (VInt 12)).
Proof.
  intros _ H.
  apply load_with_complete in H as (h & p & d & x & m & -> & _).
  split; [ computed | ]. split; [ computed | ].
  intros s13 H13.
  apply load_complete in H13 as (h' & p' & d' & x' & m' & -> & _).
  computed.
Qed.

Lemma C1_undefined_classID_witness :
  0 < 13
  /\ load_with w_ok 13 config_file = (loaded_ok, inr tt)
  /\ globals loaded_ok !! "undefined_classID" = Some (VInt (13 - 1)).
Proof.
  assert (H : load_with w_ok 13 config_file = (loaded_ok, inr tt))
    by (vm_compute; reflexivity).
  split; [ lia | ]. split; [ exact H | ].
  exact (proj1 (proj2 (C1_undefined_classID w_ok config_file 13 loaded_ok
                         ltac:(lia) H))).
Defined.

(** C2, as the spec words it, fails: with a collaborator that returns ten
    names the load succeeds and stores the ten names. *)
Lemma C2_counterexample : ~ load_checks_class_names w_ten_names config_file.
Proof.
  intros C.
  destruct (C loaded_ten_names) as (m & Hm & Hsize & _); [ computed | ].
  assert (E : m = ten_names).
  { assert (L : globals loaded_ten_names !! "class_name_dict"
                = Some (VDict ten_names)) by computed.
    rewrite L in Hm. injection Hm as <-. reflexivity. }
  subst m. vm_compute in Hsize. discriminate Hsize.
Qed.

(** C2, amended: the module does not inspect what the collaborator
    returns.  Whenever the collaborator returns a value [m], whatever its
    entries, the load succeeds and [class_name_dict] is [m]. *)
Theorem C2_class_names_stored_unchecked (w : World) (file : string)
    (s : State) (r : exn + unit) (m : value) :
  load w file = (s, r) ->
  calls_of "get_class_name_dict" (log s)
  = [ECall get_class_name_dict_fn [] (inr m)] ->
  r = inr tt /\ globals s !! "class_name_dict" = Some m.
Proof.
  intros H C. outcomes H.
  all: vm_compute in C; try discriminate C.
  injection C as <-. split; [ reflexivity | computed ].
Qed.

Lemma C2_class_names_stored_unchecked_witness :
  load w_ten_names config_file = (loaded_ten_names, inr tt)
  /\ calls_of "get_class_name_dict" (log loaded_ten_names)
     = [ECall get_class_name_dict_fn [] (inr (VDict ten_names))]
  /\ globals loaded_ten_names !! "class_name_dict" = Some (VDict ten_names).
Proof.
  assert (H : load w_ten_names config_file = (loaded_ten_names, inr tt))
    by (vm_compute; reflexivity).
  assert (C : calls_of "get_class_name_dict" (log loaded_ten_names)
              = [ECall get_class_name_dict_fn [] (inr (VDict ten_names))])
    by (vm_compute; reflexivity).
  split; [ exact H | ]. split; [ exact C | ].
  exact (proj2 (C2_class_names_stored_unchecked
                  w_ten_names config_file loaded_ten_names (inr tt)
                  (VDict ten_names) H C)).
Defined.

(** C9: a load calls the collaborator at most once, a completed load
    exactly once, and the value returned is what [class_name_dict] is
    bound to. *)
Theorem C9_collaborator_called_once (w : World) (file : string) (s : State)
    (r : exn + unit) :
  load w file = (s, r) ->
  (length (calls_of "get_class_name_dict" (log s)) <= 1)%nat
  /\ (r = inr tt ->
      exists m,
        calls_of "get_class_name_dict" (log s)
        = [ECall get_class_name_dict_fn [] (inr m)]
        /\ globals s !! "class_name_dict" = Some m).
Proof.
  intros H. outcomes H.
  all: split; [ apply Nat.leb_le; computed | ].
  all: intros R; try discriminate R.
  exists m. split; computed.
Qed.

Lemma C9_collaborator_called_once_witness :
  load w_ok config_file = (loaded_ok, inr tt)
  /\ exists m,
       calls_of "get_class_name_dict" (log loaded_ok)
       = [ECall get_class_name_dict_fn [] (inr m)]
       /\ globals loaded_ok !! "class_name_dict" = Some m.
Proof.
  assert (H : load w_ok config_file = (loaded_ok, inr tt))
    by (vm_compute; reflexivity).
  split; [ exact H | ].
  exact (proj2 (C9_collaborator_called_once w_ok config_file loaded_ok
                  (inr tt) H) eq_refl).
Defined.

(** ** Failure *)




(** C6, as the spec words it, fails: when [eng.addpath] raises, the load
    raises although neither the session start nor the collaborator did. *)
Lemma C6_counterexample :
  ~ raises_iff_start_or_collaborator w_addpath_fails config_file.
Proof.
  intros [C _].
  destruct C as [C | C].
  - exists (Raised "MatlabExecutionError"). computed.
  - apply C. computed.
  - apply C. computed.
Qed.

(** C6, amended: the exceptions raised by the external interactions of a
    load (imports, session start, [os.path] calls, [addpath],
    collaborator) are exactly the one the load ends with, or none when it
    completes; the raising interaction is the last thing the load did. *)
Theorem C6_failures_propagate (w : World) (file : string) (s : State)
    (r : exn + unit) :
  load w file = (s, r) ->
  omap raised (log s) = match r with inl e => [e] | inr _ => [] end
  /\ (forall e, r = inl e -> last (log s) ≫= raised = Some e).
Proof.
  intros H. outcomes H.
  all: split; [ computed | ].
  all: intros e' R; try discriminate R.
  all: injection R as ->; computed.
Qed.

Lemma C6_failures_propagate_witness :
  load w_addpath_fails config_file
  = (stopped_at_addpath, inl (Raised "MatlabExecutionError"))
  /\ omap raised (log stopped_at_addpath) = [Raised "MatlabExecutionError"]
  /\ last (log stopped_at_addpath) ≫= raised
     = Some (Raised "MatlabExecutionError").
Proof.
  assert (H : load w_addpath_fails config_file
              = (stopped_at_addpath, inl (Raised "MatlabExecutionError")))
    by (vm_compute; reflexivity).
  split; [ exact H | ].
  pose proof (C6_failures_propagate w_addpath_fails config_file
                stopped_at_addpath _ H) as [A B].
  split; [ exact A | exact (B _ eq_refl) ].
Defined.

(** ** Order of the steps *)

(** C5: the steps of any load are an initial part of: paths, session
    start, module directory, [addpath], signal constants, class names;
    at most one session is started.  A completed load performs all six, in
    that order, with exactly one session start and with [addpath] called
    on that session with [matlab_path]. *)
Theorem C5_load_order (w : World) (file : string) (s : State) (r : exn + unit) :
  load w file = (s, r) ->
  phases (log s) `prefix_of` six_steps
  /\ (length (calls_of "start_matlab" (log s)) <= 1)%nat
  /\ (r = inr tt ->
      phases (log s) = six_steps
      /\ exists h p d x m,
           log s = log_loaded file 13 h p d x m
           /\ calls_of "start_matlab" (log s)
              = [ECall start_matlab_fn [] (inr h)]
           /\ calls_of "addpath" (log s)
              = [ECall (addpath_fn h) [VStr matlab_path_lit] (inr x)]).
Proof.
  intros H. outcomes H.
  all: split; [ apply (bool_decide_unpack _); vm_compute; exact I | ].
  all: split; [ apply Nat.leb_le; computed | ].
  all: intros R; try discriminate R.
  split; [ computed | ].
  exists h, p, d, x, m. split; [ reflexivity | ]. split; computed.
Qed.

Lemma C5_load_order_witness :
  load w_ok config_file = (loaded_ok, inr tt)
  /\ phases (log loaded_ok) = six_steps.
Proof.
  assert (H : load w_ok config_file = (loaded_ok, inr tt))
    by (vm_compute; reflexivity).
  split; [ exact H | ].
  exact (proj1 (proj2 (proj2 (C5_load_order w_ok config_file loaded_ok
                                 (inr tt) H)) eq_refl)).
Defined.

(** ** Loading twice *)

(** C4: two completed loads, in worlds whose collaborator answers alike,
    bind every path, signal constant and label name to the same value,
    although each load has started a session of its own. *)
Theorem C4_loading_twice (w1 w2 : World) (file : string) (s1 s2 : State) :
  same_class_names w1 w2 ->
  load w1 file = (s1, inr tt) ->
  load w2 file = (s2, inr tt) ->
  (forall x, x ∈ observable_names ->
     is_Some (globals s1 !! x) /\ globals s1 !! x = globals s2 !! x)
  /\ length (calls_of "start_matlab" (log s1)) = 1%nat
  /\ length (calls_of "start_matlab" (log s2)) = 1%nat.
Proof.
  intros Hsame H1 H2.
  apply load_complete in H1 as (h1 & p1 & d1 & x1 & m1 & -> & A1).
  apply load_complete in H2 as (h2 & p2 & d2 & x2 & m2 & -> & A2).
  rewrite (Hsame _ (log_labels file 13 h2 p2 d2 x2)) in A1.
  rewrite A2 in A1. injection A1 as <-.
  split; [ | split; computed ].
  intros x Hx.
  cbv [observable_names path_names signal_names label_names] in Hx.
  cbn [app] in Hx.
  repeat (apply elem_of_cons in Hx as [-> | Hx];
          [ split; [ eexists; computed | computed ] | ]).
  apply elem_of_nil in Hx. destruct Hx.
Qed.

Lemma C4_loading_twice_witness :
  same_class_names w_ok w_again
  /\ load w_ok config_file = (loaded_ok, inr tt)
  /\ load w_again config_file = (loaded_again, inr tt)
  /\ globals loaded_ok !! "eng" = Some (VObj 0)
  /\ globals loaded_again !! "eng" = Some (VObj 1)
  /\ forall x, x ∈ observable_names ->
       is_Some (globals loaded_ok !! x)
       /\ globals loaded_ok !! x = globals loaded_again !! x.
Proof.
  assert (S : same_class_names w_ok w_again) by (intros l1 l2; reflexivity).
  assert (H1 : load w_ok config_file = (loaded_ok, inr tt))
    by (vm_compute; reflexivity).
  assert (H2 : load w_again config_file = (loaded_again, inr tt))
    by (vm_compute; reflexivity).
  split; [ exact S | ]. split; [ exact H1 | ]. split; [ exact H2 | ].
  split; [ vm_compute; reflexivity | ]. split; [ vm_compute; reflexivity | ].
  exact (proj1 (C4_loading_twice w_ok w_again config_file
                  loaded_ok loaded_again S H1 H2)).
Defined.

(** ** Signal constants *)

(** C7: after a completed load, [window_overlap < window_size] and
    [nfft >= window_size]. *)
Theorem C7_window_invariants (w : World) (file : string) (s : State) :
  load w file = (s, inr tt) ->
  exists window_size window_overlap nfft : Z,
    globals s !! "window_size" = Some (VInt window_size)
    /\ globals s !! "window_overlap" = Some (VInt window_overlap)
    /\ globals s !! "nfft" = Some (VInt nfft)
    /\ window_overlap < window_size
    /\ nfft >= window_size.
Proof.
  intros H.
  apply load_complete in H as (h & p & d & x & m & -> & _).
  exists 2400, 1200, 2400.
  split; [ computed | ]. split; [ computed | ]. split; [ computed | ]. lia.
Qed.

Lemma C7_window_invariants_witness :
  load w_ok config_file = (loaded_ok, inr tt)
  /\ exists window_size window_overlap nfft : Z,
       globals loaded_ok !! "window_size" = Some (VInt window_size)
       /\ globals loaded_ok !! "window_overlap" = Some (VInt window_overlap)
       /\ globals loaded_ok !! "nfft" = Some (VInt nfft)
       /\ window_overlap < window_size
       /\ nfft >= window_size.
Proof.
  assert (H : load w_ok config_file = (loaded_ok, inr tt))
    by (vm_compute; reflexivity).
  split; [ exact H | ].
  exact (C7_window_invariants w_ok config_file loaded_ok H).
Defined.

(** C8: after a completed load the five signal constants are the default
    literals, and compare equal to them under Python's [==]. *)
Theorem C8_default_literals (w : World) (file : string) (s : State) :
  load w file = (s, inr tt) ->
  globals s !! "fs" = Some (VInt 24000)
  /\ globals s !! "window_size" = Some (VInt 2400)
  /\ globals s !! "window_overlap" = Some (VInt 1200)
  /\ globals s !! "nfft" = Some (VInt 2400)
  /\ globals s !! "frame_length" = Some (VFloat 0.1)
  /\ (forall x lit,
        (x, lit) ∈ default_signal_constants ->
        exists v, globals s !! x = Some v /\ py_eq v lit = true).
Proof.
  intros H.
  apply load_complete in H as (h & p & d & x & m & -> & _).
  do 5 (split; [ computed | ]).
  intros y lit Hin. cbv [default_signal_constants] in Hin.
  repeat (apply elem_of_cons in Hin as [Hin | Hin];
          [ injection Hin as -> ->; eexists; split; computed | ]).
  apply elem_of_nil in Hin. destruct Hin.
Qed.

Lemma C8_default_literals_witness :
  load w_ok config_file = (loaded_ok, inr tt)
  /\ globals loaded_ok !! "fs" = Some (VInt 24000)
  /\ globals loaded_ok !! "frame_length" = Some (VFloat 0.1).
Proof.
  assert (H : load w_ok config_file = (loaded_ok, inr tt))
    by (vm_compute; reflexivity).
  split; [ exact H | ].
  pose proof (C8_default_literals w_ok config_file loaded_ok H)
    as (A & _ & _ & _ & B & _).
  split; [ exact A | exact B ].
Defined.

(** C10: after a completed load, [nfft == window_size] and
    [window_overlap * 2 == window_size]. *)
Theorem C10_exact_relations (w : World) (file : string) (s : State) :
  load w file = (s, inr tt) ->
  exists window_size window_overlap nfft : Z,
    globals s !! "window_size" = Some (VInt window_size)
    /\ globals s !! "window_overlap" = Some (VInt window_overlap)
    /\ globals s !! "nfft" = Some (VInt nfft)
    /\ nfft = window_size
    /\ window_overlap * 2 = window_size.
Proof.
  intros H.
  apply load_complete in H as (h & p & d & x & m & -> & _).
  exists 2400, 1200, 2400.
  split; [ computed | ]. split; [ computed | ]. split; [ computed | ]. lia.
Qed.

Lemma C10_exact_relations_witness :
  load w_ok config_file = (loaded_ok, inr tt)
  /\ exists window_size window_overlap nfft : Z,
       globals loaded_ok !! "window_size" = Some (VInt window_size)
       /\ globals loaded_ok !! "window_overlap" = Some (VInt window_overlap)
       /\ globals loaded_ok !! "nfft" = Some (VInt nfft)
       /\ nfft = window_size
       /\ window_overlap * 2 = window_size.
Proof.
  assert (H : load w_ok config_file = (loaded_ok, inr tt))
    by (vm_compute; reflexivity).
  split; [ exact H | ].
  exact (C10_exact_relations w_ok config_file loaded_ok H).
Defined.

(** * Further properties of the module body *)

(** ** The namespace of a completed load *)

(** X1: a completed load leaves exactly twenty-six names bound: the eight
    every module starts with ([__doc__] among them, which the body sets to
    the docstring), the four imported names, [eng], [this_file_path], the
    four paths, the five signal constants and the three label names.
    Nothing else is bound: the results of [abspath] and of [addpath] are
    not kept. *)
Theorem X1_names_bound (w : World) (file : string) (s : State) :
  load w file = (s, inr tt) ->
  dom (globals s) = module_names.
Proof.
  intros H.
  apply load_complete in H as (h & p & d & x & m & -> & _).
  cbv [globals ns_loaded ns_labels ns_here ns_session ns_paths ns_imports
       ns_np ns_engine ns_os ns_doc ns_fresh fresh_module].
  rewrite !dom_insert_L, dom_singleton_L.
  cbv [module_names initial_names imported_names observable_names
       path_names signal_names label_names].
  cbn [app list_to_set foldr].
  set_solver.
Qed.

Lemma X1_names_bound_witness :
  load w_ok config_file = (loaded_ok, inr tt)
  /\ dom (globals loaded_ok) = module_names.
Proof.
  assert (H : load w_ok config_file = (loaded_ok, inr tt))
    by (vm_compute; reflexivity).
  split; [ exact H | ].
  exact (X1_names_bound w_ok config_file loaded_ok H).
Defined.

(** X2: in a completed load, [eng] is bound to the value the one
    [start_matlab] call returned, and the one [addpath] call is made on
    that value, with the value bound to [matlab_path] as its only
    argument. *)
Theorem X2_session_is_eng (w : World) (file : string) (s : State) :
  load w file = (s, inr tt) ->
  exists h mp x,
    calls_of "start_matlab" (log s) = [ECall start_matlab_fn [] (inr h)]
    /\ globals s !! "eng" = Some h
    /\ globals s !! "matlab_path" = Some mp
    /\ calls_of "addpath" (log s) = [ECall (VAttr h "addpath") [mp] (inr x)].
Proof.
  intros H.
  apply load_complete in H as (h & p & d & x & m & -> & _).
  exists h, (VStr matlab_path_lit), x.
  split; [ computed | ]. split; [ computed | ]. split; computed.
Qed.

Lemma X2_session_is_eng_witness :
  load w_ok config_file = (loaded_ok, inr tt)
  /\ exists h mp x,
       calls_of "start_matlab" (log loaded_ok)
       = [ECall start_matlab_fn [] (inr h)]
       /\ globals loaded_ok !! "eng" = Some h
       /\ globals loaded_ok !! "matlab_path" = Some mp
       /\ calls_of "addpath" (log loaded_ok)
          = [ECall (VAttr h "addpath") [mp] (inr x)].
Proof.
  assert (H : load w_ok config_file = (loaded_ok, inr tt))
    by (vm_compute; reflexivity).
  split; [ exact H | ].
  exact (X2_session_is_eng w_ok config_file loaded_ok H).
Defined.

(** X3: in a completed load, [abspath] is called once, on the module's
    [__file__]; [dirname] is called once, on what [abspath] returned; and
    [this_file_path] is bound to what [dirname] returned. *)
Theorem X3_this_file_path (w : World) (file : string) (s : State) :
  load w file = (s, inr tt) ->
  exists p d,
    globals s !! "__file__" = Some (VStr file)
    /\ calls_of "abspath" (log s) = [ECall abspath_fn [VStr file] (inr p)]
    /\ calls_of "dirname" (log s) = [ECall dirname_fn [p] (inr d)]
    /\ globals s !! "this_file_path" = Some d.
Proof.
  intros H.
  apply load_complete in H as (h & p & d & x & m & -> & _).
  exists p, d.
  split; [ computed | ]. split; [ computed | ]. split; computed.
Qed.

Lemma X3_this_file_path_witness :
  load w_ok config_file = (loaded_ok, inr tt)
  /\ exists p d,
       globals loaded_ok !! "__file__" = Some (VStr config_file)
       /\ calls_of "abspath" (log loaded_ok)
          = [ECall abspath_fn [VStr config_file] (inr p)]
       /\ calls_of "dirname" (log loaded_ok) = [ECall dirname_fn [p] (inr d)]
       /\ globals loaded_ok !! "this_file_path" = Some d.
Proof.
  assert (H : load w_ok config_file = (loaded_ok, inr tt))
    by (vm_compute; reflexivity).
  split; [ exact H | ].
  exact (X3_this_file_path w_ok config_file loaded_ok H).
Defined.

(** X4: the module does not check the sign of [num_classes]: for every
    integer literal a completed load binds [undefined_classID] to
    [num_classes - 1], which is negative when the literal is not
    positive. *)
Theorem X4_no_positivity_check (w : World) (file : string) (n : Z)
    (s : State) :
  load_with w n file = (s, inr tt) ->
  globals s !! "num_classes" = Some (VInt n)
  /\ globals s !! "undefined_classID" = Some (VInt (n - 1))
  /\ (n <= 0 ->
      exists k, globals s !! "undefined_classID" = Some (VInt k) /\ k < 0).
Proof.
  intros H.
  apply load_with_complete in H as (h & p & d & x & m & -> & _).
  split; [ computed | ]. split; [ computed | ].
  intros Hn. exists (n - 1). split; [ computed | lia ].
Qed.

Lemma X4_no_positivity_check_witness :
  load_with w_ok 0 config_file = (loaded_zero_classes, inr tt)
  /\ globals loaded_zero_classes !! "undefined_classID" = Some (VInt (0 - 1)).
Proof.
  assert (H : load_with w_ok 0 config_file = (loaded_zero_classes, inr tt))
    by (vm_compute; reflexivity).
  split; [ exact H | ].
  exact (proj1 (proj2 (X4_no_positivity_check w_ok config_file 0
                         loaded_zero_classes H))).
Defined.

(** ** Loads that abort *)

(** X5: whenever a load has reached the session start, whether or not the
    start and the rest of the load succeed, the four path names are bound
    to their literals. *)
Theorem X5_paths_before_session (w : World) (file : string) (s : State)
    (r : exn + unit) :
  load w file = (s, r) ->
  calls_of "start_matlab" (log s) <> [] ->
  globals s !! "data_folder_path" = Some (VStr data_folder_path_lit)
  /\ globals s !! "stft_folder_path" = Some (VStr stft_folder_path_lit)
  /\ globals s !! "csv_file_path" = Some (VStr csv_file_path_lit)
  /\ globals s !! "matlab_path" = Some (VStr matlab_path_lit).
Proof.
  intros H C. outcomes H.
  all: try (exfalso; apply C; computed).
  all: split; [ computed | ]; split; [ computed | ]; split; computed.
Qed.

Lemma X5_paths_before_session_witness :
  load w_no_engine config_file
  = (stopped_no_engine, inl (Raised "EngineError"))
  /\ calls_of "start_matlab" (log stopped_no_engine) <> []
  /\ globals stopped_no_engine !! "matlab_path" = Some (VStr matlab_path_lit).
Proof.
  assert (H : load w_no_engine config_file
              = (stopped_no_engine, inl (Raised "EngineError")))
    by (vm_compute; reflexivity).
  assert (C : calls_of "start_matlab" (log stopped_no_engine) <> [])
    by (vm_compute; discriminate).
  split; [ exact H | ]. split; [ exact C | ].
  exact (proj2 (proj2 (proj2 (X5_paths_before_session
                                w_no_engine config_file _ _ H C)))).
Defined.

(** X6: an aborted load never binds [class_name_dict].  If it aborted
    before the collaborator was called, none of the signal constants and
    label names is bound; if the collaborator call is what raised, the
    signal constants, [num_classes] and [undefined_classID] are bound. *)
Theorem X6_aborted_load_is_partial (w : World) (file : string) (s : State)
    (e : exn) :
  load w file = (s, inl e) ->
  globals s !! "class_name_dict" = None
  /\ (calls_of "get_class_name_dict" (log s) = [] ->
      forall name, name ∈ late_names -> globals s !! name = None)
  /\ (calls_of "get_class_name_dict" (log s) <> [] ->
      forall name, name ∈ late_names -> name <> "class_name_dict" ->
        is_Some (globals s !! name)).
Proof.
  intros H. outcomes H.
  all: split; [ computed | ].
  all: split.
  all: intros C name Hx;
       cbv [late_names signal_names label_names] in Hx; cbn [app] in Hx.
  all: try (vm_compute in C; discriminate C).
  all: try (exfalso; apply C; computed).
  all: try (repeat (apply elem_of_cons in Hx as [-> | Hx]; [ computed | ]);
            apply elem_of_nil in Hx; destruct Hx).
  intros Hne.
  repeat (apply elem_of_cons in Hx as [-> | Hx];
          [ first [ eexists; computed | destruct Hne; reflexivity ] | ]).
  apply elem_of_nil in Hx. destruct Hx.
Qed.

Lemma X6_aborted_load_is_partial_witness :
  load w_no_names config_file = (stopped_no_names, inl (Raised "KeyError"))
  /\ globals stopped_no_names !! "class_name_dict" = None
  /\ (calls_of "get_class_name_dict" (log stopped_no_names) <> [] ->
      forall name, name ∈ late_names -> name <> "class_name_dict" ->
        is_Some (globals stopped_no_names !! name)).
Proof.
  assert (H : load w_no_names config_file
              = (stopped_no_names, inl (Raised "KeyError")))
    by (vm_compute; reflexivity).
  split; [ exact H | ].
  pose proof (X6_aborted_load_is_partial w_no_names config_file
                stopped_no_names _ H) as (A & _ & B).
  split; [ exact A | exact B ].
Defined.

(** X7: when one of the four imports raises (numpy included, although
    the module never uses it), the load raises, its log holds imports
    only: no session is started, no call is made, nothing is assigned,
    and none of the configuration names is bound. *)
Theorem X7_import_failure_stops_everything (w : World) (file : string)
    (s : State) (r : exn + unit) :
  load w file = (s, r) ->
  omap raised (List.filter is_import (log s)) <> [] ->
  List.filter (fun ev => negb (is_import ev)) (log s) = []
  /\ (forall name, name ∈ observable_names -> globals s !! name = None)
  /\ exists e, r = inl e.
Proof.
  intros H C. outcomes H.
  all: try (exfalso; apply C; computed).
  all: split; [ computed | ].
  all: split; [ | eexists; reflexivity ].
  all: intros name Hx;
       cbv [observable_names path_names signal_names label_names] in Hx;
       cbn [app] in Hx.
  all: repeat (apply elem_of_cons in Hx as [-> | Hx]; [ computed | ]).
  all: apply elem_of_nil in Hx; destruct Hx.
Qed.

Lemma X7_import_failure_stops_everything_witness :
  load w_no_numpy config_file
  = (stopped_no_numpy, inl (Raised "ModuleNotFoundError"))
  /\ omap raised (List.filter is_import (log stopped_no_numpy)) <> []
  /\ List.filter (fun ev => negb (is_import ev)) (log stopped_no_numpy) = [].
Proof.
  assert (H : load w_no_numpy config_file
              = (stopped_no_numpy, inl (Raised "ModuleNotFoundError")))
    by (vm_compute; reflexivity).
  assert (C : omap raised (List.filter is_import (log stopped_no_numpy)) <> [])
    by (vm_compute; discriminate).
  split; [ exact H | ]. split; [ exact C | ].
  exact (proj1 (X7_import_failure_stops_everything
                  w_no_numpy config_file _ _ H C)).
Defined.

(** ** External calls *)

(** X9: the external calls of any load are an initial part of
    [start_matlab], [abspath], [dirname], [addpath],
    [get_class_name_dict], each made at most once; a completed load makes
    all five.  No load calls [quit] or [exit]: a session that was started
    is never shut down by the module, also when the load aborts later. *)
Theorem X9_external_calls (w : World) (file : string) (s : State)
    (r : exn + unit) :
  load w file = (s, r) ->
  omap call_name (log s) `prefix_of` external_calls
  /\ (r = inr tt -> omap call_name (log s) = external_calls)
  /\ calls_of "quit" (log s) = []
  /\ calls_of "exit" (log s) = [].
Proof.
  intros H. outcomes H.
  all: split; [ apply (bool_decide_unpack _); vm_compute; exact I | ].
  all: split; [ | split; computed ].
  all: intros R; try discriminate R.
  computed.
Qed.

Lemma X9_external_calls_witness :
  load w_no_names config_file = (stopped_no_names, inl (Raised "KeyError"))
  /\ omap call_name (log stopped_no_names) `prefix_of` external_calls
  /\ calls_of "quit" (log stopped_no_names) = [].
Proof.
  assert (H : load w_no_names config_file
              = (stopped_no_names, inl (Raised "KeyError")))
    by (vm_compute; reflexivity).
  split; [ exact H | ].
  pose proof (X9_external_calls w_no_names config_file stopped_no_names _ H)
    as (A & _ & B & _).
  split; [ exact A | exact B ].
Defined.

(** X10: when the session start raises, the namespace the body leaves
    behind holds exactly sixteen names: the eight every module starts
    with, the four imported names and the four paths.  The docstring is
    in [__doc__]. *)
Theorem X10_start_failure_names (w : World) (file : string) (s : State)
    (e : exn) :
  load w file = (s, inl e) ->
  raised_by "start_matlab" (log s) = [e] ->
  dom (globals s) = names_before_session
  /\ globals s !! "__doc__" = Some (VStr docstring_lit).
Proof.
  intros H C. outcomes H.
  all: vm_compute in C; try discriminate C.
  split; [ | computed ].
  cbv [globals ns_paths ns_imports ns_np ns_engine ns_os ns_doc ns_fresh
       fresh_module].
  rewrite !dom_insert_L, dom_singleton_L.
  cbv [names_before_session initial_names imported_names path_names].
  cbn [app list_to_set foldr].
  set_solver.
Qed.

Lemma X10_start_failure_names_witness :
  load w_no_engine config_file
  = (stopped_no_engine, inl (Raised "EngineError"))
  /\ raised_by "start_matlab" (log stopped_no_engine) = [Raised "EngineError"]
  /\ dom (globals stopped_no_engine) = names_before_session.
Proof.
  assert (H : load w_no_engine config_file
              = (stopped_no_engine, inl (Raised "EngineError")))
    by (vm_compute; reflexivity).
  assert (C : raised_by "start_matlab" (log stopped_no_engine)
              = [Raised "EngineError"])
    by (vm_compute; reflexivity).
  split; [ exact H | ]. split; [ exact C | ].
  exact (proj1 (X10_start_failure_names w_no_engine config_file _ _ H C)).
Defined.
